(** * translator.py (jaseci_ai_kit, module translator): a shallow embedding

    The module loads an mBART-50 model and its tokenizer, binds a few module
    globals and exposes three actions: [translate], [fill_mask] and
    [supported_languages].  The embedding keeps

    - the module globals as a finite map from names to Python objects, since
      the name [supported_languages] is bound twice while the module is
      loaded (line 20 and line 92);
    - the tokenizer object with its mutable [src_lang] attribute;
    - standard output (the printed tracebacks) and the sequence of calls
      made to the transformers / torch collaborators;
    - exceptions as values of an error monad, with the [try ... except
      Exception] of each action written out;
    - a Python [str] as the string of the bytes of its UTF-8 encoding. *)

From Stdlib Require Import ZArith Ascii String List.
From stdpp Require Import gmap strings list.
Import ListNotations.

Local Open Scope Z_scope.

(** ** Python data *)

(** The objects the module globals are bound to. *)
Inductive pyobj : Type :=
| PyList (items : list string)   (* a list of str *)
| PyFunction (name : string)     (* a function object created by [def name] *)
| PyInstance (cls : string).     (* an instance of a library class (model, tokenizer) *)

(** An instance [e] of a subclass of [Exception]: [type(e).__name__] and
    [str(e)].  Interpreter signals that derive from [BaseException] only
    (KeyboardInterrupt, SystemExit) are asynchronous and not modelled. *)
Record exception : Type := Exc { exc_type : string; exc_str : string }.

(** fastapi.HTTPException(status_code=..., detail=...) *)
Record HTTPException : Type := HTTPExc { status_code : Z; detail : string }.

Inductive outcome (E A : Type) : Type :=
| Returned (a : A)
| Raised (e : E).
Arguments Returned {E A} a.
Arguments Raised {E A} e.

(** [text: Union[str, List[str]]] *)
Inductive text_arg : Type :=
| Single (s : string)
| Batch (l : list string).

(** What [tokenizer(...)] returns with [return_tensors="pt"]: two 2-D
    integer tensors, given row by row. *)
Record BatchEncoding : Type := Encoding {
  input_ids : list (list Z);
  attention_mask : list (list Z)
}.

(** The tokenizer object: the attribute [translate] assigns to, the
    language table and the id of the mask token. *)
Record tokenizer_obj : Type := Tokenizer {
  src_lang : string;
  lang_code_to_id : list (string * Z);   (* a dict, in insertion order *)
  mask_token_id : Z
}.

(** Calls made to the collaborators, in the order they happen. *)
Inductive call : Type :=
| CallTokenizer (text : list string) (add_special_tokens : bool)
| CallGenerate (encoded : BatchEncoding) (forced_bos_token_id : Z)
| CallBatchDecode (sequences : list (list Z))
| CallForward (ids : list (list Z))
| CallDecode (ids : list Z).

(** ** Process state *)

Record state : Type := State {
  globals : gmap string pyobj;       (* the module's global names *)
  tokenizer : tokenizer_obj;         (* the object the global [tokenizer] refers to *)
  live_actions : list string;        (* actions registered with the host framework *)
  stdout : list string;              (* what [print] wrote, oldest first *)
  calls : list call                  (* collaborator calls, oldest first *)
}.

Definition set_globals (g : gmap string pyobj) (s : state) : state :=
  State g (tokenizer s) (live_actions s) (stdout s) (calls s).

Definition set_tokenizer (t : tokenizer_obj) (s : state) : state :=
  State (globals s) t (live_actions s) (stdout s) (calls s).

Definition add_action (name : string) (s : state) : state :=
  State (globals s) (tokenizer s) (live_actions s ++ [name]) (stdout s) (calls s).

Definition print (line : string) (s : state) : state :=
  State (globals s) (tokenizer s) (live_actions s) (stdout s ++ [line]) (calls s).

Definition record_call (c : call) (s : state) : state :=
  State (globals s) (tokenizer s) (live_actions s) (stdout s) (calls s ++ [c]).

(** ** The monad of a function body: state and exceptions *)

Definition py (A : Type) : Type := state -> state * outcome exception A.

#[local] Instance py_ret : MRet py := fun A a s => (s, Returned a).

#[local] Instance py_bind : MBind py := fun A B k m s =>
  match m s with
  | (s', Returned a) => k a s'
  | (s', Raised e) => (s', Raised e)
  end.

Definition raise {A : Type} (e : exception) : py A := fun s => (s, Raised e).

Definition lift {A : Type} (r : outcome exception A) : py A := fun s => (s, r).

Definition log_call (c : call) : py unit := fun s => (record_call c s, Returned tt).

(** An action as the host sees it: it returns or raises HTTPException. *)
Definition action (A : Type) : Type := state -> state * outcome HTTPException A.

(** ** Python built-ins used by the module *)

Definition ValueError (msg : string) : exception := Exc "ValueError" msg.
Definition TypeError (msg : string) : exception := Exc "TypeError" msg.
Definition NameError (msg : string) : exception := Exc "NameError" msg.

Definition type_name (o : pyobj) : string :=
  match o with
  | PyList _ => "list"
  | PyFunction _ => "function"
  | PyInstance cls => cls
  end.

Definition not_iterable (o : pyobj) : exception :=
  TypeError ("argument of type '" +:+ type_name o +:+ "' is not iterable").

(** [x in o]: list membership by [==]; an object without [__contains__],
    [__iter__] and [__getitem__] raises TypeError. *)
Definition py_in (x : string) (o : pyobj) : outcome exception bool :=
  match o with
  | PyList items => Returned (bool_decide (x ∈ items))
  | PyFunction _ | PyInstance _ => Raised (not_iterable o)
  end.

(** Reading a global name. *)
Definition load_global (name : string) : py pyobj := fun s =>
  match globals s !! name with
  | Some o => (s, Returned o)
  | None => (s, Raised (NameError ("name '" +:+ name +:+ "' is not defined")))
  end.

(** [str.split()] without arguments: the maximal runs of characters that
    are not whitespace.  The whitespace characters of Python are U+0009 to
    U+000D, U+001C to U+0020, U+0085, U+00A0, U+1680, U+2000 to U+200A,
    U+2028, U+2029, U+202F, U+205F and U+3000; in UTF-8 they take one, two
    or three bytes. *)
Definition byte_in (lo hi : nat) (c : ascii) : bool :=
  let n := nat_of_ascii c in Nat.leb lo n && Nat.leb n hi.

Definition byte_is (v : nat) (c : ascii) : bool := Nat.eqb (nat_of_ascii c) v.

(** The number of bytes of the whitespace character that [s] starts with,
    0 if it starts with none. *)
Definition whitespace_length (s : string) : nat :=
  match s with
  | EmptyString => 0
  | String c r =>
      if byte_in 9 13 c || byte_in 28 32 c then 1
      else
        match r with
        | EmptyString => 0
        | String d r' =>
            if byte_is 194 c then                      (* U+0085, U+00A0 *)
              (if byte_is 133 d || byte_is 160 d then 2 else 0)
            else
              match r' with
              | EmptyString => 0
              | String e _ =>
                  if byte_is 225 c then                (* U+1680 *)
                    (if byte_is 154 d && byte_is 128 e then 3 else 0)
                  else if byte_is 226 c then           (* U+2000 to U+205F *)
                    (if byte_is 128 d
                        && (byte_in 128 138 e || byte_in 168 169 e || byte_is 175 e)
                     then 3
                     else if byte_is 129 d && byte_is 159 e then 3 else 0)
                  else if byte_is 227 c then           (* U+3000 *)
                    (if byte_is 128 d && byte_is 128 e then 3 else 0)
                  else 0
              end
        end
  end.

Definition flush_word (word : string) (rest : list string) : list string :=
  match word with
  | EmptyString => rest
  | _ => word :: rest
  end.

(** [skip] counts the bytes still to pass of a whitespace character that
    was recognised at its first byte. *)
Fixpoint split_from (skip : nat) (word : string) (s : string) : list string :=
  match s with
  | EmptyString => flush_word word []
  | String c r =>
      match skip with
      | S k => split_from k word r
      | O =>
          match whitespace_length s with
          | O => split_from O (word +:+ String c EmptyString) r
          | S k => flush_word word (split_from k EmptyString r)
          end
      end
  end.

Definition split (s : string) : list string := split_from 0 EmptyString s.

(** [d[k]] on a dict given in insertion order. *)
Fixpoint dict_lookup (d : list (string * Z)) (k : string) : option Z :=
  match d with
  | [] => None
  | (k', v) :: d' => if bool_decide (k' = k) then Some v else dict_lookup d' k
  end.

(** [list(d.keys())] *)
Definition keys (d : list (string * Z)) : list string := map fst d.

(** ** Tensor operations of torch on 1-D and 2-D data *)

(** [(row == v).nonzero()]: the positions of [v] in [row], ascending. *)
Fixpoint positions_from (i : nat) (v : Z) (row : list Z) : list nat :=
  match row with
  | [] => []
  | x :: row' =>
      if bool_decide (x = v) then i :: positions_from (S i) v row'
      else positions_from (S i) v row'
  end.

Definition nonzero_eq (row : list Z) (v : Z) : list nat := positions_from 0 v row.

(** ** The host framework *)

(** Modelled from the spec: the decorator [jaseci_action] of the host
    action-dispatch framework (jaseci.actions.live_actions), which is not
    part of this module.  The spec says of it only that the three operations
    are registered with the host framework as named, remotely invocable
    operations: the decorator records the action under its group and name
    and hands the function object back, which the [def] statement then
    binds to the function's name. *)
Definition jaseci_action (act_group : string) (func : pyobj) (s : state)
  : state * pyobj :=
  match func with
  | PyFunction name => (add_action (act_group +:+ "." +:+ name) s, func)
  | _ => (s, func)
  end.

(** ** A fake tokenizer and model

    Small stand-ins for the collaborators, on which the actions can be run:
    the tokenizer encodes a text character by character, with [?] for the
    mask token, and the model scores its own input. *)
Module Fake.

Definition tk : tokenizer_obj :=
  Tokenizer "en_XX" [("en_XX", 250004); ("fr_XX", 250008)] 250053.

Definition encode_char (c : ascii) : Z :=
  if bool_decide (c = "?"%char) then 250053 else Z.of_nat (nat_of_ascii c).

Definition encode_row (x : string) : list Z :=
  map encode_char (list_ascii_of_string x).

Definition encoding_of (text : list string) : BatchEncoding :=
  Encoding (map encode_row text)
           (map (fun x => map (fun _ => 1) (encode_row x)) text).

Definition tokenizer_call (t : tokenizer_obj) (text : list string)
    (add_special_tokens : bool) : outcome exception BatchEncoding :=
  Returned (encoding_of text).

Definition generate (encoded : BatchEncoding) (forced_bos_token_id : Z)
  : outcome exception (list (list Z)) :=
  Returned (map (cons forced_bos_token_id) (input_ids encoded)).

Definition word_of (id : Z) : string :=
  if bool_decide (id = 0) then "Paris" else "London".

Fixpoint text_of (ids : list Z) : string :=
  match ids with
  | [] => EmptyString
  | id :: ids' => word_of id +:+ " " +:+ text_of ids'
  end.

Definition decode (ids : list Z) (skip_special_tokens : bool)
  : outcome exception string :=
  Returned (text_of ids).

Definition batch_decode (sequences : list (list Z))
  : outcome exception (list string) :=
  Returned (map text_of sequences).

Definition forward (ids : list (list Z))
  : outcome exception (list (list (list Z))) :=
  Returned (map (map (fun x => [x; 3; 9])) ids).

Definition softmax (t : list Z) : list Z := t.

(** The largest element of [x :: t] with its position, the first one
    among equals; [i] is the position of [x] and [j] the position of the
    head of [t]. *)
Fixpoint largest (x : Z) (i : nat) (j : nat) (t : list Z) : Z * nat :=
  match t with
  | [] => (x, i)
  | y :: t' => if Z.ltb x y then largest y j (S j) t' else largest x i (S j) t'
  end.

(** [topk] for [k] up to 1; a larger [k] is refused. *)
Definition topk (t : list Z) (k : Z) : outcome exception (list Z * list Z) :=
  match t with
  | x :: t' =>
      if bool_decide (k = 0) then Returned ([], [])
      else if bool_decide (k = 1) then
        let '(v, i) := largest x 0 1 t' in Returned ([v], [Z.of_nat i])
      else Raised (Exc "RuntimeError" "selected index k out of range")
  | [] =>
      if bool_decide (k = 0) then Returned ([], [])
      else Raised (Exc "RuntimeError" "selected index k out of range")
  end.

Definition format_exc (e : exception) : string :=
  "Traceback (most recent call last): " +:+ exc_type e +:+ ": " +:+ exc_str e.

Definition py_repr (x : string) : string := "'" +:+ x +:+ "'".

Definition item_error (n : nat) : exception :=
  Exc "ValueError" "only one element tensors can be converted to Python scalars".

Definition index_error : exception :=
  Exc "IndexError" "index is out of bounds".

End Fake.

(** Stand-ins for the two [from_pretrained] calls of [setup]. *)
Module FakeHub.

Definition load_model (name : string) : outcome exception pyobj :=
  Returned (PyInstance "MBartForConditionalGeneration").

Definition load_tokenizer (name : string) : outcome exception tokenizer_obj :=
  Returned Fake.tk.

End FakeHub.

(** ** The module *)

Section Translator.

(** *** Collaborators: transformers, torch, traceback *)

(** Elements of the float tensors (logits, probabilities). *)
Variable score : Type.

(** [tokenizer(text, add_special_tokens=..., return_tensors="pt")]; the
    encoding depends on the tokenizer's attributes. *)
Variable tokenizer_call :
  tokenizer_obj -> list string -> bool -> outcome exception BatchEncoding.
(** [model.generate] on the fields of [encoded] and [forced_bos_token_id] *)
Variable generate : BatchEncoding -> Z -> outcome exception (list (list Z)).
(** [tokenizer.batch_decode(sequences, skip_special_tokens=True)] *)
Variable batch_decode : list (list Z) -> outcome exception (list string).
(** [model(input_ids).logits], indexed batch, position, vocabulary *)
Variable forward : list (list Z) -> outcome exception (list (list (list score))).
(** [t.softmax(dim=0)] on a 1-D tensor *)
Variable softmax : list score -> list score.
(** [t.topk(k)] on a 1-D tensor: values and indices *)
Variable topk : list score -> Z -> outcome exception (list score * list Z).
(** [tokenizer.decode(ids, skip_special_tokens=...)] *)
Variable decode : list Z -> bool -> outcome exception string.
(** [traceback.format_exc()] while [e] is being handled *)
Variable format_exc : exception -> string.
(** [repr] of a str, the text of a KeyError *)
Variable py_repr : string -> string.
(** What [.item()] raises on a tensor of [n] elements, [n] not 1. *)
Variable item_error : nat -> exception.
(** What indexing a tensor out of range raises. *)
Variable index_error : exception.

Definition KeyError (key : string) : exception := Exc "KeyError" (py_repr key).

(** [t.item()] on the tensor [(row == v).nonzero()] *)
Definition item (t : list nat) : outcome exception nat :=
  match t with
  | [i] => Returned i
  | _ => Raised (item_error (List.length t))
  end.

(** [t[i]] *)
Definition index {A : Type} (t : list A) (i : nat) : outcome exception A :=
  match t !! i with
  | Some x => Returned x
  | None => Raised index_error
  end.

(** *** Lines 9-20 *)

Definition setup : pyobj * pyobj :=
  (PyInstance "MBartForConditionalGeneration", PyInstance "MBart50TokenizerFast").

Definition store_global (name : string) (o : pyobj) (s : state) : state :=
  set_globals (<[name := o]> (globals s)) s.

(** *** [translate], lines 23-54 *)

Definition translate_body (text : text_arg) (src tgt : string)
  : py (list string) :=
  langs ← load_global "supported_languages";
  known ← lift (py_in src langs);
  if negb known then
    raise (ValueError ("Unsupported source language: " +:+ src))
  else
  langs ← load_global "supported_languages";
  known ← lift (py_in tgt langs);
  if negb known then
    raise (ValueError ("Unsupported target language: " +:+ tgt))
  else
  let text := match text with Single s => [s] | Batch l => l end in
  (fun s => (set_tokenizer
               (Tokenizer src (lang_code_to_id (tokenizer s))
                          (mask_token_id (tokenizer s))) s,
             Returned tt)) ;;
  forced_bos_token_id ←
    (fun s => (s, match dict_lookup (lang_code_to_id (tokenizer s)) tgt with
                  | Some v => Returned v
                  | None => Raised (KeyError tgt)
                  end));
  log_call (CallTokenizer text true) ;;
  encoded ← (fun s => (s, tokenizer_call (tokenizer s) text true));
  log_call (CallGenerate encoded forced_bos_token_id) ;;
  generated_tokens ← lift (generate encoded forced_bos_token_id);
  log_call (CallBatchDecode generated_tokens) ;;
  lift (batch_decode generated_tokens).

(** [try: body  except Exception as e: print(traceback.format_exc());
    raise HTTPException(status_code=500, detail=str(e))] *)
Definition try_except {A : Type} (body : py A) : action A := fun s =>
  match body s with
  | (s', Returned a) => (s', Returned a)
  | (s', Raised e) =>
      (print (format_exc e) s', Raised (HTTPExc 500 (exc_str e)))
  end.

Definition translate (text : text_arg) (src tgt : string)
  : action (list string) :=
  try_except (translate_body text src tgt).

(** *** [fill_mask], lines 57-88

    [k] is the argument [topk]; a caller that leaves it out gets 10. *)

Definition fill_mask_body (text : string) (src : string) (k : Z)
  : py (list string) :=
  langs ← load_global "supported_languages";
  known ← lift (py_in src langs);
  if negb known then
    raise (ValueError ("Unsupported source language: " +:+ src))
  else
  let text := "</s> " +:+ text +:+ " </s> " +:+ src in   (* line 74 *)
  log_call (CallTokenizer [text] false) ;;
  encoded ← (fun s => (s, tokenizer_call (tokenizer s) [text] false));
  let ids := input_ids encoded in
  log_call (CallForward ids) ;;
  logits ← lift (forward ids);
  row ← lift (index ids 0);
  mask ← (fun s => (s, Returned (mask_token_id (tokenizer s))));
  masked_index ← lift (item (nonzero_eq row mask));
  logits0 ← lift (index logits 0);
  at_mask ← lift (index logits0 masked_index);
  let probs := softmax at_mask in
  top ← lift (topk probs k);
  let predictions := snd top in
  log_call (CallDecode predictions) ;;
  decoded ← lift (decode predictions false);
  mret (split decoded).

Definition fill_mask (text : string) (src : string) (k : Z)
  : action (list string) :=
  try_except (fill_mask_body text src k).

(** *** [supported_languages], lines 91-99 *)

Definition supported_languages : py pyobj :=
  load_global "supported_languages".

(** *** Loading the module

    The statements of the module in order, for a tokenizer [tk] as
    [from_pretrained] loaded it.  A decorated [def f] evaluates the
    decorator on the new function object and binds the result to [f]. *)
Definition def_action (name : string) (s : state) : state :=
  let '(s', f) := jaseci_action "translator" (PyFunction name) s in
  store_global name f s'.

Definition module_init (tk : tokenizer_obj) : state :=
  let s := State ∅ tk [] [] [] in
  let '(m, t) := setup in
  let s := store_global "model" m s in                        (* line 19 *)
  let s := store_global "tokenizer" t s in
  let s := store_global "supported_languages"
             (PyList (keys (lang_code_to_id (tokenizer s)))) s in   (* line 20 *)
  let s := def_action "translate" s in                        (* line 23 *)
  let s := def_action "fill_mask" s in                        (* line 57 *)
  def_action "supported_languages" s.                         (* line 91 *)

(** The module as it would be with the list of line 20 still bound: the
    state just before line 91 runs. *)
Definition module_before_line_91 (tk : tokenizer_obj) : state :=
  let s := State ∅ tk [] [] [] in
  let '(m, t) := setup in
  let s := store_global "model" m s in
  let s := store_global "tokenizer" t s in
  let s := store_global "supported_languages"
             (PyList (keys (lang_code_to_id (tokenizer s)))) s in
  let s := def_action "translate" s in
  def_action "fill_mask" s.

(** *** Requests

    The host calls the actions one after the other on the state the
    module was loaded into. *)
Inductive request : Type :=
| Translate (text : text_arg) (src tgt : string)
| FillMask (text : string) (src : string) (k : Z).

Definition body_of (r : request) : py (list string) :=
  match r with
  | Translate text src tgt => translate_body text src tgt
  | FillMask text src k => fill_mask_body text src k
  end.

Definition perform (r : request) : action (list string) :=
  match r with
  | Translate text src tgt => translate text src tgt
  | FillMask text src k => fill_mask text src k
  end.

Inductive reachable (tk : tokenizer_obj) : state -> Prop :=
| reach_init : reachable tk (module_init tk)
| reach_perform r s : reachable tk s -> reachable tk (fst (perform r s))
| reach_supported_languages s :
    reachable tk s -> reachable tk (fst (supported_languages s)).


(** *** Frames

    The shared state is the module globals, the tokenizer object and the
    host's table of actions; standard output and the record of
    collaborator calls are what a call leaves behind, not state that
    another call reads. *)
Definition same_shared (s s' : state) : Prop :=
  globals s' = globals s
  /\ tokenizer s' = tokenizer s
  /\ live_actions s' = live_actions s.

(** Nothing changes but, possibly, the tokenizer's [src_lang], and that
    only to [src]. *)
Definition only_src_lang (src : string) (s s' : state) : Prop :=
  globals s' = globals s
  /\ live_actions s' = live_actions s
  /\ lang_code_to_id (tokenizer s') = lang_code_to_id (tokenizer s)
  /\ mask_token_id (tokenizer s') = mask_token_id (tokenizer s)
  /\ (src_lang (tokenizer s') = src_lang (tokenizer s)
      \/ src_lang (tokenizer s') = src).

(** A computation keeps [R] when [R] relates each state to the one it
    ends in. *)
Definition keeps {A : Type} (R : state -> state -> Prop) (m : py A) : Prop :=
  forall s, R s (fst (m s)).

(** *** Loading the checkpoints, lines 9-19

    [from_pretrained] of the model class and of the tokenizer class: each
    fetches a checkpoint by name and may fail. *)
Variable load_model : string -> outcome exception pyobj.
Variable load_tokenizer : string -> outcome exception tokenizer_obj.

Definition checkpoint : string := "facebook/mbart-large-50-many-to-many-mmt".

(** [setup()] with its two loads, the model first. *)
Definition setup_loaded : outcome exception (pyobj * tokenizer_obj) :=
  match load_model checkpoint with
  | Raised e => Raised e
  | Returned m =>
      match load_tokenizer checkpoint with
      | Raised e => Raised e
      | Returned tk => Returned (m, tk)
      end
  end.

(** Importing the module, from line 9 on: the statements from line 19 on
    run only if [setup()] returns.  This is the part of the import that
    [setup()] decides, and the state a completed import leaves; an
    exception raised by the import statements of lines 1-6 or inside a
    decorator call would end the import as well and is not part of it. *)
Definition import_module : outcome exception state :=
  match setup_loaded with
  | Raised e => Raised e
  | Returned (m, tk) =>
      let s := State ∅ tk [] [] [] in
      let s := store_global "model" m s in
      let s := store_global "tokenizer" (snd setup) s in
      let s := store_global "supported_languages"
                 (PyList (keys (lang_code_to_id (tokenizer s)))) s in
      let s := def_action "translate" s in
      let s := def_action "fill_mask" s in
      Returned (def_action "supported_languages" s)
  end.

(** *** The calls one request can add

    [translate] on [texts]: the tokenizer, then generation, then
    [batch_decode], stopping at the first that fails. *)
Definition translate_calls (texts : list string) (l : list call) : Prop :=
  match l with
  | [] => True
  | CallTokenizer t true :: rest =>
      t = texts
      /\ match rest with
         | [] | [CallGenerate _ _] | [CallGenerate _ _; CallBatchDecode _] => True
         | _ => False
         end
  | _ => False
  end.

(** [fill_mask] on the wrapped text: the tokenizer without special tokens,
    then one forward pass, then [decode]. *)
Definition fill_mask_calls_of (wrapped : string) (l : list call) : Prop :=
  match l with
  | [] => True
  | CallTokenizer t false :: rest =>
      t = [wrapped]
      /\ match rest with
         | [] | [CallForward _] | [CallForward _; CallDecode _] => True
         | _ => False
         end
  | _ => False
  end.

(** *** Words *)

(** No whitespace character starts at any of the first [n] bytes of [s]. *)
Fixpoint starts_clean (n : nat) (s : string) : bool :=
  match n, s with
  | S n', String c r => Nat.eqb (whitespace_length s) 0 && starts_clean n' r
  | _, _ => true
  end.

Definition no_whitespace (w : string) : bool := starts_clean (String.length w) w.

(** The characters of [s] that are not whitespace. *)
Fixpoint strip_from (skip : nat) (s : string) : string :=
  match s with
  | EmptyString => EmptyString
  | String c r =>
      match skip with
      | S k => strip_from k r
      | O =>
          match whitespace_length s with
          | O => String c (strip_from O r)
          | S k => strip_from k r
          end
      end
  end.

Definition strip_whitespace (s : string) : string := strip_from 0 s.

(** The strings of [l] one after the other. *)
Fixpoint concat_words (l : list string) : string :=
  match l with
  | [] => EmptyString
  | w :: l' => w +:+ concat_words l'
  end.

(** *** Serving from any state

    The states the process passes through when the host makes its requests
    starting in [s0]. *)
Inductive served_from (s0 : state) : state -> Prop :=
| served_none : served_from s0 s0
| served_request r s :
    served_from s0 s -> served_from s0 (fst (perform r s))
| served_listing s :
    served_from s0 s -> served_from s0 (fst (supported_languages s)).

(** ** Running the monad *)

Ltac run_py :=
  unfold translate, fill_mask, try_except, translate_body, fill_mask_body,
    supported_languages, mbind, py_bind, mret, py_ret, load_global, lift,
    raise, log_call in *.

Ltac run_cases :=
  run_py; repeat (case_match; simplify_eq; simpl in *; try done).

(** ** The two bindings of [supported_languages] *)

Lemma globals_before_line_91 tk :
  globals (module_before_line_91 tk) !! "supported_languages"
  = Some (PyList (keys (lang_code_to_id tk))).
Proof.
  unfold module_before_line_91, def_action, store_global. simpl.
  rewrite !lookup_insert_ne by done. apply lookup_insert_eq.
Qed.

Lemma module_init_rebinds tk :
  module_init tk = def_action "supported_languages" (module_before_line_91 tk).
Proof. reflexivity. Qed.

Lemma globals_after_init tk :
  globals (module_init tk) !! "supported_languages"
  = Some (PyFunction "supported_languages").
Proof.
  rewrite module_init_rebinds. unfold def_action, store_global. simpl.
  apply lookup_insert_eq.
Qed.

Lemma py_in_function x name :
  py_in x (PyFunction name)
  = Raised (TypeError "argument of type 'function' is not iterable").
Proof. reflexivity. Qed.

(** ** What the actions leave alone *)

Lemma perform_globals r s : globals (fst (perform r s)) = globals s.
Proof. destruct r; simpl; run_cases. Qed.

Lemma supported_languages_state s : fst (supported_languages s) = s.
Proof. run_cases. Qed.

(** No request rebinds a global, so the binding made at line 91 stays. *)
Lemma reachable_globals tk s :
  reachable tk s -> globals s = globals (module_init tk).
Proof.
  induction 1 as [| r s _ IH | s _ IH].
  - reflexivity.
  - rewrite perform_globals. exact IH.
  - rewrite supported_languages_state. exact IH.
Qed.

Lemma reachable_binding tk s :
  reachable tk s ->
  globals s !! "supported_languages" = Some (PyFunction "supported_languages").
Proof.
  intros Hr. rewrite (reachable_globals tk s Hr). apply globals_after_init.
Qed.

(** With a function bound to the name, the membership test of lines 37 and
    71 raises and nothing after it runs. *)
Lemma body_with_function_bound r s name :
  globals s !! "supported_languages" = Some (PyFunction name) ->
  body_of r s
  = (s, Raised (TypeError "argument of type 'function' is not iterable")).
Proof.
  intros Hg. destruct r; simpl; run_py; rewrite Hg; reflexivity.
Qed.

Lemma perform_with_function_bound r s name :
  globals s !! "supported_languages" = Some (PyFunction name) ->
  perform r s
  = (print (format_exc (TypeError "argument of type 'function' is not iterable")) s,
     Raised (HTTPExc 500 "argument of type 'function' is not iterable")).
Proof.
  intros Hg. pose proof (body_with_function_bound r s name Hg) as Hb.
  destruct r; simpl in *; unfold translate, fill_mask, try_except;
    rewrite Hb; reflexivity.
Qed.

(** With the list of line 20 bound, an unsupported code is reported by
    name before any collaborator is called. *)
Lemma translate_unsupported_source_with_list s langs text x b :
  globals s !! "supported_languages" = Some (PyList langs) ->
  x ∉ langs ->
  translate text x b s
  = (print (format_exc (ValueError ("Unsupported source language: " +:+ x))) s,
     Raised (HTTPExc 500 ("Unsupported source language: " +:+ x))).
Proof.
  intros Hg Hx. run_py. rewrite Hg. simpl.
  rewrite bool_decide_false by done. reflexivity.
Qed.

Lemma translate_unsupported_target_with_list s langs text a x :
  globals s !! "supported_languages" = Some (PyList langs) ->
  a ∈ langs ->
  x ∉ langs ->
  translate text a x s
  = (print (format_exc (ValueError ("Unsupported target language: " +:+ x))) s,
     Raised (HTTPExc 500 ("Unsupported target language: " +:+ x))).
Proof.
  intros Hg Ha Hx. run_py. rewrite Hg. simpl.
  rewrite bool_decide_true by done. simpl. rewrite Hg. simpl.
  rewrite bool_decide_false by done. reflexivity.
Qed.

(** ** The claims on error handling and on the shape of the results *)

(** C1, at the failing input.  Once the module is loaded, a call of
    [translate] with a language code outside the table does not report the
    unsupported code: for every text, every code [x] and every other code
    [b], both [translate(text, x, b)] and [translate(text, b, x)] raise
    HTTPException 500 whose detail is the text of the TypeError of the
    membership test, which is neither of the two unsupported-language
    messages; no collaborator is called. *)
Theorem translate_unsupported_after_init tk text x b :
  let s := module_init tk in
  let msg := "argument of type 'function' is not iterable" in
  translate text x b s
  = (print (format_exc (TypeError msg)) s, Raised (HTTPExc 500 msg))
  /\ translate text b x s
     = (print (format_exc (TypeError msg)) s, Raised (HTTPExc 500 msg))
  /\ calls (fst (translate text x b s)) = []
  /\ msg <> "Unsupported source language: " +:+ x
  /\ msg <> "Unsupported target language: " +:+ x.
Proof.
  intros s msg.
  pose proof (perform_with_function_bound (Translate text x b) s _
                (globals_after_init tk)) as H1.
  pose proof (perform_with_function_bound (Translate text b x) s _
                (globals_after_init tk)) as H2.
  simpl in H1, H2. split_and!.
  - exact H1.
  - exact H2.
  - rewrite H1. reflexivity.
  - intros H. vm_compute in H. discriminate H.
  - intros H. vm_compute in H. discriminate H.
Qed.

(** C2.  Loading the module rebinds [supported_languages] from the list
    of line 20 to the function of line 92; in every state reached from
    the loaded module the membership test of [translate] is made against
    that function and raises TypeError inside the [try], and the call
    ends in the generic HTTPException 500: [translate] returns normally
    for no input. *)
Theorem translate_never_returns tk s text src tgt :
  reachable tk s ->
  let msg := "argument of type 'function' is not iterable" in
  globals (module_before_line_91 tk) !! "supported_languages"
    = Some (PyList (keys (lang_code_to_id tk)))
  /\ globals s !! "supported_languages"
     = Some (PyFunction "supported_languages")
  /\ py_in src (PyFunction "supported_languages") = Raised (TypeError msg)
  /\ translate_body text src tgt s = (s, Raised (TypeError msg))
  /\ translate text src tgt s
     = (print (format_exc (TypeError msg)) s, Raised (HTTPExc 500 msg)).
Proof.
  intros Hr msg. pose proof (reachable_binding tk s Hr) as Hg.
  split_and!.
  - apply globals_before_line_91.
  - exact Hg.
  - reflexivity.
  - exact (body_with_function_bound (Translate text src tgt) s _ Hg).
  - exact (perform_with_function_bound (Translate text src tgt) s _ Hg).
Qed.

(** C3, at the failing input.  In the loaded module
    [supported_languages()] returns the function object bound to its own
    name, which is no list, although the list of language codes was bound
    to that name until line 91. *)
Theorem supported_languages_returns_function tk :
  supported_languages (module_init tk)
  = (module_init tk, Returned (PyFunction "supported_languages"))
  /\ (forall items, PyFunction "supported_languages" <> PyList items)
  /\ supported_languages (module_before_line_91 tk)
     = (module_before_line_91 tk, Returned (PyList (keys (lang_code_to_id tk)))).
Proof.
  split_and!.
  - unfold supported_languages, load_global.
    rewrite globals_after_init. reflexivity.
  - intros items H. discriminate H.
  - unfold supported_languages, load_global.
    rewrite globals_before_line_91. reflexivity.
Qed.

(** C4.  Whenever [translate] or [fill_mask] fails, an exception [e] was
    raised inside the [try] block (by the validation or by a
    collaborator); the handler printed the trace of [e] and the caller
    gets HTTPException with status 500 and the text of [e] as detail. *)
Theorem failure_is_http_500 r s s' h :
  perform r s = (s', Raised h) ->
  status_code h = 500
  /\ exists e s_body,
       body_of r s = (s_body, Raised e)
       /\ h = HTTPExc 500 (exc_str e)
       /\ s' = print (format_exc e) s_body
       /\ stdout s' = stdout s_body ++ [format_exc e].
Proof.
  intros H.
  assert (perform r s = try_except (body_of r) s) as Hp by (destruct r; reflexivity).
  rewrite Hp in H. unfold try_except in H.
  destruct (body_of r s) as [s_body [a | e]] eqn:Hb.
  - discriminate H.
  - injection H as <- <-. split; [reflexivity |].
    exists e, s_body. split_and!; reflexivity.
Qed.

(** The other direction: whatever is raised in the body is caught. *)
Lemma body_failure_is_caught r s s_body e :
  body_of r s = (s_body, Raised e) ->
  perform r s = (print (format_exc e) s_body, Raised (HTTPExc 500 (exc_str e))).
Proof.
  intros Hb. destruct r; simpl in *; unfold translate, fill_mask, try_except;
    rewrite Hb; reflexivity.
Qed.

(** A failure of the generation step, with the list of line 20 bound. *)
Lemma translate_generate_failure s langs text src tgt bos encoded e :
  let texts := match text with Single x => [x] | Batch l => l end in
  let tok := Tokenizer src (lang_code_to_id (tokenizer s))
               (mask_token_id (tokenizer s)) in
  globals s !! "supported_languages" = Some (PyList langs) ->
  src ∈ langs -> tgt ∈ langs ->
  dict_lookup (lang_code_to_id (tokenizer s)) tgt = Some bos ->
  tokenizer_call tok texts true = Returned encoded ->
  generate encoded bos = Raised e ->
  snd (translate text src tgt s) = Raised (HTTPExc 500 (exc_str e)).
Proof.
  intros texts tok Hg Hs Ht Hb Henc Hgen. run_py. rewrite Hg. simpl.
  rewrite (bool_decide_true _ Hs). simpl. rewrite Hg. simpl.
  rewrite (bool_decide_true _ Ht). simpl. rewrite Hb. simpl.
  fold texts. fold tok. rewrite Henc. simpl. rewrite Hgen. reflexivity.
Qed.



(** ** Frame rules *)

#[local] Instance same_shared_preorder : PreOrder same_shared.
Proof.
  split.
  - intros s. unfold same_shared. auto.
  - intros s1 s2 s3 (Hg & Ht & Ha) (Hg' & Ht' & Ha'). unfold same_shared.
    split_and!; congruence.
Qed.

#[local] Instance only_src_lang_preorder src : PreOrder (only_src_lang src).
Proof.
  split.
  - intros s. unfold only_src_lang. auto 6.
  - intros s1 s2 s3 (Hg & Ha & Hl & Hm & Hs) (Hg' & Ha' & Hl' & Hm' & Hs').
    unfold only_src_lang. split_and!; try congruence.
    destruct Hs' as [Hs' | Hs']; [rewrite Hs'; exact Hs | right; exact Hs'].
Qed.

Lemma keeps_bind {A B : Type} (R : state -> state -> Prop) `{!Transitive R}
    (m : py A) (k : A -> py B) :
  keeps R m -> (forall a, keeps R (k a)) -> keeps R (m ≫= k).
Proof.
  intros Hm Hk s. unfold mbind, py_bind. specialize (Hm s).
  destruct (m s) as [s1 [a | e]]; simpl in *.
  - transitivity s1; [exact Hm | apply Hk].
  - exact Hm.
Qed.

Lemma keeps_pure {A : Type} (R : state -> state -> Prop) `{!Reflexive R}
    (r : state -> outcome exception A) :
  keeps R (fun s => (s, r s)).
Proof. intros s. simpl. reflexivity. Qed.

Lemma keeps_load_global (R : state -> state -> Prop) `{!Reflexive R} name :
  keeps R (load_global name).
Proof. intros s. unfold load_global. case_match; simpl; reflexivity. Qed.

Lemma keeps_log_call_shared c : keeps same_shared (log_call c).
Proof. intros s. unfold same_shared. simpl. auto. Qed.

Lemma keeps_log_call_src src c : keeps (only_src_lang src) (log_call c).
Proof. intros s. unfold only_src_lang. simpl. auto 6. Qed.

Ltac frame :=
  repeat first
    [ apply keeps_load_global; typeclasses eauto
    | apply keeps_log_call_shared
    | apply keeps_log_call_src
    | apply (keeps_pure _ (fun _ => _)); typeclasses eauto
    | apply keeps_pure; typeclasses eauto
    | apply keeps_bind; [typeclasses eauto | | intros ?]
    | match goal with |- keeps _ (if ?b then _ else _) => destruct b end ].

Lemma fill_mask_body_frame text src k :
  keeps same_shared (fill_mask_body text src k).
Proof. unfold fill_mask_body, lift, raise, mret, py_ret. frame. Qed.

Lemma translate_body_frame text src tgt :
  keeps (only_src_lang src) (translate_body text src tgt).
Proof.
  unfold translate_body, lift, raise. frame.
  intros s. unfold only_src_lang. simpl. auto 6.
Qed.

Lemma try_except_frame {A : Type} (R : state -> state -> Prop)
    `{!Transitive R} (body : py A) :
  (forall line s, R s (print line s)) ->
  keeps R body -> forall s, R s (fst (try_except body s)).
Proof.
  intros Hp Hb s. unfold try_except. specialize (Hb s).
  destruct (body s) as [s1 [a | e]]; simpl in *.
  - exact Hb.
  - transitivity s1; [exact Hb | apply Hp].
Qed.

(** ** What a normal return tells *)

Lemma translate_body_returned s s' text src tgt outs :
  translate_body text src tgt s = (s', Returned outs) ->
  let texts := match text with Single x => [x] | Batch l => l end in
  let tok := Tokenizer src (lang_code_to_id (tokenizer s))
               (mask_token_id (tokenizer s)) in
  exists langs bos encoded generated,
    globals s !! "supported_languages" = Some (PyList langs)
    /\ src ∈ langs
    /\ tgt ∈ langs
    /\ dict_lookup (lang_code_to_id (tokenizer s)) tgt = Some bos
    /\ tokenizer_call tok texts true = Returned encoded
    /\ generate encoded bos = Returned generated
    /\ batch_decode generated = Returned outs
    /\ s' = record_call (CallBatchDecode generated)
              (record_call (CallGenerate encoded bos)
                 (record_call (CallTokenizer texts true)
                    (set_tokenizer tok s))).
Proof.
  intros H texts tok. run_py. unfold py_in in H.
  repeat (case_match; simplify_eq; simpl in *; try done).
  all: repeat match goal with
         | Hn : negb (bool_decide _) = false |- _ =>
             apply negb_false_iff, bool_decide_eq_true in Hn
         end.
  all: eexists _, _, _, _; split_and!; eauto.
Qed.

Lemma fill_mask_body_returned s s' text src k preds :
  fill_mask_body text src k s = (s', Returned preds) ->
  let wrapped := "</s> " +:+ text +:+ " </s> " +:+ src in
  exists langs encoded logits row i logits0 at_mask values ids decoded,
    globals s !! "supported_languages" = Some (PyList langs)
    /\ src ∈ langs
    /\ tokenizer_call (tokenizer s) [wrapped] false = Returned encoded
    /\ forward (input_ids encoded) = Returned logits
    /\ input_ids encoded !! 0%nat = Some row
    /\ nonzero_eq row (mask_token_id (tokenizer s)) = [i]
    /\ logits !! 0%nat = Some logits0
    /\ logits0 !! i = Some at_mask
    /\ topk (softmax at_mask) k = Returned (values, ids)
    /\ decode ids false = Returned decoded
    /\ preds = split decoded
    /\ s' = record_call (CallDecode ids)
              (record_call (CallForward (input_ids encoded))
                 (record_call (CallTokenizer [wrapped] false) s)).
Proof.
  intros H wrapped. run_py. unfold index, item, py_in in H.
  repeat (case_match; simplify_eq; simpl in *; try done).
  match goal with
  | Hn : negb (bool_decide _) = false |- _ =>
      apply negb_false_iff, bool_decide_eq_true in Hn
  end.
  match goal with
  | Ht : topk _ _ = Returned ?p |- _ => destruct p as [values ids]
  end.
  eexists _, _, _, _, _, _, _, _, _, _; split_and!; eauto.
Qed.

(** With the list of line 20 bound, a call of [fill_mask] that returns
    has encoded once, run one forward pass and decoded once; it has not
    called the generation procedure. *)
Lemma fill_mask_calls s s' text src k preds :
  fill_mask text src k s = (s', Returned preds) ->
  exists ids predictions,
    calls s'
    = calls s ++ [CallTokenizer ["</s> " +:+ text +:+ " </s> " +:+ src] false;
                  CallForward ids; CallDecode predictions].
Proof.
  intros H. unfold fill_mask, try_except in H.
  destruct (fill_mask_body text src k s) as [s1 [a | e]] eqn:Hb; simplify_eq.
  destruct (fill_mask_body_returned _ _ _ _ _ _ Hb)
    as (langs & encoded & logits & row & i & logits0 & at_mask & values
        & ids & decoded & _ & _ & _ & _ & _ & _ & _ & _ & _ & _ & _ & ->).
  exists (input_ids encoded), ids. simpl. rewrite <- !app_assoc. reflexivity.
Qed.

(** ** The claims on batches, the mask position, the steps and the shared state *)

(** What line 43 is there for: in every state, a single string and the
    list holding just that string give the same outcome and the same final
    state, and whenever the call returns, the tokenizer was given the
    one-element list and the result is the decoding of what the model
    generated for it. *)
Lemma translate_single_is_batch_of_one s x a b :
  translate (Single x) a b s = translate (Batch [x]) a b s
  /\ match translate (Single x) a b s with
     | (s', Returned outs) =>
         exists encoded bos generated,
           tokenizer_call (tokenizer s') [x] true = Returned encoded
           /\ generate encoded bos = Returned generated
           /\ batch_decode generated = Returned outs
           /\ calls s' = calls s ++ [CallTokenizer [x] true;
                                     CallGenerate encoded bos;
                                     CallBatchDecode generated]
     | (_, Raised _) => True
     end.
Proof.
  split; [reflexivity |].
  unfold translate, try_except.
  destruct (translate_body (Single x) a b s) as [s1 [outs | e]] eqn:Hb;
    [| exact I].
  destruct (translate_body_returned _ _ _ _ _ _ Hb)
    as (langs & bos & encoded & generated
        & _ & _ & _ & _ & Henc & Hgen & Hdec & ->).
  exists encoded, bos, generated. simpl.
  rewrite <- !app_assoc. split_and!; auto.
Qed.





(** C8.  When the encoded text holds no mask token or more than one,
    [fill_mask] ends in HTTPException 500 carrying the text of the
    exception [e] raised in its body, never in a result.  If the body gets
    as far as the position lookup of line 81 (the language list is bound,
    [src] is in it and the forward pass returns), [e] is the error that
    [.item()] raises on a tensor that has not exactly one element;
    otherwise [e] is the earlier failure.  No ValueError naming the mask
    is raised. *)
Theorem fill_mask_mask_count s text src k encoded row :
  let wrapped := "</s> " +:+ text +:+ " </s> " +:+ src in
  let n := List.length (nonzero_eq row (mask_token_id (tokenizer s))) in
  tokenizer_call (tokenizer s) [wrapped] false = Returned encoded ->
  input_ids encoded !! 0%nat = Some row ->
  n <> 1%nat ->
  exists s_body e,
    fill_mask_body text src k s = (s_body, Raised e)
    /\ fill_mask text src k s
       = (print (format_exc e) s_body, Raised (HTTPExc 500 (exc_str e)))
    /\ e = match globals s !! "supported_languages" with
           | None => NameError ("name '" +:+ "supported_languages" +:+ "' is not defined")
           | Some (PyList langs) =>
               if bool_decide (src ∈ langs) then
                 match forward (input_ids encoded) with
                 | Returned _ => item_error n
                 | Raised e' => e'
                 end
               else ValueError ("Unsupported source language: " +:+ src)
           | Some o => not_iterable o
           end.
Proof.
  intros wrapped n Henc Hrow Hn.
  assert (item (nonzero_eq row (mask_token_id (tokenizer s)))
          = Raised (item_error n)) as Hitem.
  { unfold item. subst n.
    destruct (nonzero_eq row (mask_token_id (tokenizer s))) as [| i [| j t]];
      simpl in *; congruence. }
  assert (exists s_body e,
    fill_mask_body text src k s = (s_body, Raised e)
    /\ e = match globals s !! "supported_languages" with
           | None => NameError ("name '" +:+ "supported_languages" +:+ "' is not defined")
           | Some (PyList langs) =>
               if bool_decide (src ∈ langs) then
                 match forward (input_ids encoded) with
                 | Returned _ => item_error n
                 | Raised e' => e'
                 end
               else ValueError ("Unsupported source language: " +:+ src)
           | Some o => not_iterable o
           end) as (s_body & e & Hb & He).
  { run_py. destruct (globals s !! "supported_languages") as [[langs | f | c] |];
      simpl; eauto.
    destruct (bool_decide (src ∈ langs)); simpl; eauto.
    fold wrapped. rewrite Henc. simpl.
    destruct (forward (input_ids encoded)) as [logits | e']; simpl; eauto.
    unfold index at 1. rewrite Hrow. simpl. rewrite Hitem. eauto. }
  exists s_body, e. split_and!; [exact Hb | | exact He].
  unfold fill_mask, try_except. rewrite Hb. reflexivity.
Qed.

(** C9, at the failing input.  In the loaded module [fill_mask] stops at
    the membership test of line 71 for every text, every language code
    and every [topk]: it raises HTTPException 500 with the text of the
    TypeError, and neither the tokenizer nor the model has been called. *)
Theorem fill_mask_after_init_runs_no_step tk text src k :
  let s := module_init tk in
  let msg := "argument of type 'function' is not iterable" in
  fill_mask text src k s
  = (print (format_exc (TypeError msg)) s, Raised (HTTPExc 500 msg))
  /\ calls (fst (fill_mask text src k s)) = [].
Proof.
  intros s msg.
  pose proof (perform_with_function_bound (FillMask text src k) s _
                (globals_after_init tk)) as H.
  simpl in H. rewrite H. split; reflexivity.
Qed.

(** C10.  Of the shared state, [translate] changes at most the
    tokenizer's [src_lang], to the [src] of the call, and has done so
    whenever it returns; [fill_mask] and [supported_languages] change
    nothing of it.  The globals (with the model handle and the language
    list among them), the language table and the mask id of the tokenizer
    are the same after every call. *)
Theorem shared_state_frame s text src tgt text' src' k :
  let s1 := fst (translate text src tgt s) in
  let s2 := fst (fill_mask text' src' k s) in
  let s3 := fst (supported_languages s) in
  only_src_lang src s s1
  /\ match snd (translate text src tgt s) with
     | Returned _ => src_lang (tokenizer s1) = src
     | Raised _ => True
     end
  /\ same_shared s s2
  /\ s3 = s.
Proof.
  intros s1 s2 s3. subst s1 s2 s3. unfold translate, fill_mask. split_and!.
  - apply (try_except_frame (only_src_lang src)).
    + intros line s0. unfold only_src_lang. simpl. auto 6.
    + apply translate_body_frame.
  - unfold try_except.
    destruct (translate_body text src tgt s) as [s0 [a | e]] eqn:Hb; simpl;
      [| exact I].
    destruct (translate_body_returned _ _ _ _ _ _ Hb)
      as (langs & bos & encoded & generated & H). 
    destruct H as (_ & _ & _ & _ & _ & _ & _ & ->). reflexivity.
  - apply (try_except_frame same_shared).
    + intros line s0. unfold same_shared. simpl. auto.
    + apply fill_mask_body_frame.
  - apply supported_languages_state.
Qed.

(** ** Further properties of the module *)

(** *** The loaded module *)

(** X1.  Whatever requests the loaded module has served, the tokenizer is
    as it was loaded, no collaborator has been called, the globals and the
    action table are those of the import, and standard output holds nothing
    but tracebacks of the TypeError of the membership test. *)
Theorem loaded_module_invariant tk s :
  reachable tk s ->
  tokenizer s = tk
  /\ calls s = []
  /\ globals s = globals (module_init tk)
  /\ live_actions s = live_actions (module_init tk)
  /\ Forall (fun line =>
       line = format_exc (TypeError "argument of type 'function' is not iterable"))
       (stdout s).
Proof.
  induction 1 as [| r s Hr IH | s Hr IH].
  - split_and!; try reflexivity. constructor.
  - rewrite (perform_with_function_bound r s _ (reachable_binding tk s Hr)).
    destruct IH as (Ht & Hc & Hg & Ha & Ho). simpl.
    split_and!; auto.
    apply Forall_app. split; [exact Ho | repeat constructor].
  - rewrite supported_languages_state. exact IH.
Qed.

(** X2.  In every state the loaded module can be in, [fill_mask] fails
    like [translate] does, for every text, language and [topk], and
    [supported_languages()] returns the function object and leaves the
    state as it is. *)
Theorem loaded_module_serves_nothing tk s text src k :
  reachable tk s ->
  fill_mask text src k s
  = (print (format_exc (TypeError "argument of type 'function' is not iterable")) s,
     Raised (HTTPExc 500 "argument of type 'function' is not iterable"))
  /\ supported_languages s = (s, Returned (PyFunction "supported_languages")).
Proof.
  intros Hr. pose proof (reachable_binding tk s Hr) as Hg. split.
  - exact (perform_with_function_bound (FillMask text src k) s _ Hg).
  - unfold supported_languages, load_global. rewrite Hg. reflexivity.
Qed.

(** *** Validation, with a list bound to [supported_languages] *)

(** X3.  [translate] checks the source language before the target
    language and rejects before it touches anything: if either code is
    missing from the list, the call raises HTTPException 500 naming the
    source code when that one is missing and the target code otherwise, and
    the final state differs from the initial one by the printed traceback
    only (the tokenizer's [src_lang] is not assigned, no collaborator is
    called). *)
Theorem translate_rejects_unsupported s langs text src tgt :
  globals s !! "supported_languages" = Some (PyList langs) ->
  (src ∉ langs) \/ (tgt ∉ langs) ->
  let msg := if bool_decide (src ∈ langs)
             then "Unsupported target language: " +:+ tgt
             else "Unsupported source language: " +:+ src in
  translate text src tgt s
  = (print (format_exc (ValueError msg)) s, Raised (HTTPExc 500 msg)).
Proof.
  intros Hg Hor msg. subst msg. case_bool_decide as Hs.
  - destruct Hor as [Hn | Hn]; [contradiction |].
    exact (translate_unsupported_target_with_list s langs text src tgt Hg Hs Hn).
  - exact (translate_unsupported_source_with_list s langs text src tgt Hg Hs).
Qed.

(** X4.  [fill_mask] rejects a source language that is not in the list
    in the same way: HTTPException 500 naming the code, one traceback
    printed, the text neither wrapped nor encoded, the model not run. *)
Theorem fill_mask_rejects_unsupported s langs text src k :
  globals s !! "supported_languages" = Some (PyList langs) ->
  src ∉ langs ->
  fill_mask text src k s
  = (print (format_exc (ValueError ("Unsupported source language: " +:+ src))) s,
     Raised (HTTPExc 500 ("Unsupported source language: " +:+ src))).
Proof.
  intros Hg Hn. run_py. rewrite Hg. simpl.
  rewrite bool_decide_false by done. reflexivity.
Qed.

Lemma dict_lookup_keys d k : k ∈ keys d -> is_Some (dict_lookup d k).
Proof.
  induction d as [| [k' v] d IH]; simpl; intros Hk.
  - inversion Hk.
  - case_bool_decide as Heq; [eauto |].
    apply IH. apply list_elem_of_In in Hk. simpl in Hk.
    destruct Hk as [Hk | Hk]; [congruence |].
    apply list_elem_of_In. exact Hk.
Qed.

Lemma dict_lookup_is_key d k v : dict_lookup d k = Some v -> k ∈ keys d.
Proof.
  induction d as [| [k' v'] d IH]; simpl; intros Hk.
  - discriminate Hk.
  - case_bool_decide as Heq.
    + subst k'. apply list_elem_of_here.
    + apply list_elem_of_further. exact (IH Hk).
Qed.

(** X5.  When the list bound to [supported_languages] is the key list of
    the tokenizer's language table, as line 20 builds it, the lookup of the
    target language at line 45 cannot fail for validated codes: the forced
    first token is found, and the outcome of [translate] is that of
    encoding under the new source language, generating with that token and
    decoding, the first failure among the three being reported as
    HTTPException 500 with its own text. *)
Theorem translate_validated_pipeline s text src tgt :
  let table := lang_code_to_id (tokenizer s) in
  let texts := match text with Single x => [x] | Batch l => l end in
  let tok := Tokenizer src table (mask_token_id (tokenizer s)) in
  globals s !! "supported_languages" = Some (PyList (keys table)) ->
  src ∈ keys table ->
  tgt ∈ keys table ->
  exists bos,
    dict_lookup table tgt = Some bos
    /\ snd (translate text src tgt s)
       = match tokenizer_call tok texts true with
         | Raised e => Raised (HTTPExc 500 (exc_str e))
         | Returned encoded =>
             match generate encoded bos with
             | Raised e => Raised (HTTPExc 500 (exc_str e))
             | Returned generated =>
                 match batch_decode generated with
                 | Raised e => Raised (HTTPExc 500 (exc_str e))
                 | Returned outs => Returned outs
                 end
             end
         end.
Proof.
  intros table texts tok Hg Hs Ht.
  destruct (dict_lookup_keys table tgt Ht) as [bos Hb].
  exists bos. split; [exact Hb |].
  run_py. rewrite Hg. simpl.
  rewrite (bool_decide_true _ Hs). simpl. rewrite Hg. simpl.
  rewrite (bool_decide_true _ Ht). simpl. fold table. rewrite Hb. simpl.
  fold texts. fold tok.
  destruct (tokenizer_call tok texts true) as [encoded | e]; simpl; [| reflexivity].
  destruct (generate encoded bos) as [generated | e]; simpl; [| reflexivity].
  destruct (batch_decode generated) as [outs | e]; reflexivity.
Qed.

(** *** What a request leaves behind *)

(** X6.  In every state, a request adds to the record of collaborator
    calls only what its action may call, in the order of the source:
    [translate] the tokenizer on the given texts, then generation, then
    [batch_decode]; [fill_mask] the tokenizer on the wrapped text without
    special tokens, then one forward pass, then [decode].  [translate] never
    runs a forward pass and [fill_mask] never generates. *)
Theorem request_calls s text src tgt text' src' k :
  (exists l,
     calls (fst (translate text src tgt s)) = calls s ++ l
     /\ translate_calls (match text with Single x => [x] | Batch t => t end) l)
  /\ (exists l,
        calls (fst (fill_mask text' src' k s)) = calls s ++ l
        /\ fill_mask_calls_of ("</s> " +:+ text' +:+ " </s> " +:+ src') l).
Proof.
  split.
  - run_py. unfold py_in.
    repeat (case_match; simplify_eq; simpl in *);
      (eexists; split;
       [ rewrite <- ?app_assoc; first [reflexivity | symmetry; apply app_nil_r]
       | simpl; auto ]).
  - run_py. unfold py_in, index, item.
    repeat (case_match; simplify_eq; simpl in *);
      (eexists; split;
       [ rewrite <- ?app_assoc; first [reflexivity | symmetry; apply app_nil_r]
       | simpl; auto ]).
Qed.

(** X7.  In every state, a request that returns has printed nothing, and
    a request that fails has printed exactly one line, the traceback of the
    exception whose text the HTTPException carries. *)
Theorem request_output r s :
  match perform r s with
  | (s', Returned _) => stdout s' = stdout s
  | (s', Raised h) =>
      exists e, stdout s' = stdout s ++ [format_exc e]
                /\ h = HTTPExc 500 (exc_str e)
  end.
Proof.
  assert (forall s0, stdout (fst (body_of r s0)) = stdout s0) as Hbody.
  { intros s0. destruct r; simpl; run_py; unfold py_in, index, item;
      repeat (case_match; simplify_eq; simpl in *; try done). }
  assert (perform r s = try_except (body_of r) s) as -> by (destruct r; reflexivity).
  unfold try_except. specialize (Hbody s).
  destruct (body_of r s) as [s1 [a | e]]; simpl in *.
  - exact Hbody.
  - exists e. rewrite Hbody. split; reflexivity.
Qed.

(** *** The mask position *)

Lemma positions_from_spec row v : forall n j,
  j ∈ positions_from n v row
  <-> exists m, j = (n + m)%nat /\ row !! m = Some v.
Proof.
  induction row as [| x row IH]; intros n j; simpl.
  - split; [intros H; inversion H | intros (m & _ & H); discriminate H].
  - assert (j ∈ positions_from (S n) v row
            <-> exists m, j = (n + S m)%nat /\ row !! m = Some v) as Htail.
    { rewrite IH. split; intros (m & -> & Hm); exists m; split; auto; lia. }
    case_bool_decide as Hx.
    + rewrite elem_of_cons, Htail. split.
      * intros [-> | (m & -> & Hm)].
        -- exists 0%nat. split; [lia | simpl; congruence].
        -- exists (S m). split; [reflexivity | exact Hm].
      * intros ([| m] & -> & Hm).
        -- left. lia.
        -- right. exists m. split; [reflexivity | exact Hm].
    + rewrite Htail. split.
      * intros (m & -> & Hm). exists (S m). split; [reflexivity | exact Hm].
      * intros ([| m] & -> & Hm).
        -- simpl in Hm. congruence.
        -- exists m. split; [reflexivity | exact Hm].
Qed.

Lemma nonzero_eq_spec row v j : j ∈ nonzero_eq row v <-> row !! j = Some v.
Proof.
  unfold nonzero_eq. rewrite positions_from_spec. split.
  - intros (m & -> & Hm). exact Hm.
  - intros Hj. exists j. split; [reflexivity | exact Hj].
Qed.

(** X8.  A call of [fill_mask] that returns has read the logits at the
    one position of the first encoded row that holds the mask token: the
    row holds the mask token there and nowhere else, and the logits have an
    entry for that position. *)
Theorem fill_mask_reads_mask_position s s' text src k preds :
  fill_mask text src k s = (s', Returned preds) ->
  exists encoded logits row i logits0 at_mask,
    tokenizer_call (tokenizer s)
      ["</s> " +:+ text +:+ " </s> " +:+ src] false = Returned encoded
    /\ input_ids encoded !! 0%nat = Some row
    /\ row !! i = Some (mask_token_id (tokenizer s))
    /\ (forall j, row !! j = Some (mask_token_id (tokenizer s)) -> j = i)
    /\ forward (input_ids encoded) = Returned logits
    /\ logits !! 0%nat = Some logits0
    /\ logits0 !! i = Some at_mask.
Proof.
  intros H. unfold fill_mask, try_except in H.
  destruct (fill_mask_body text src k s) as [s1 [a | e]] eqn:Hb; simplify_eq.
  destruct (fill_mask_body_returned _ _ _ _ _ _ Hb)
    as (langs & encoded & logits & row & i & logits0 & at_mask & values
        & ids & decoded & _ & _ & Henc & Hfwd & Hrow & Hpos & Hl0 & Hat & _).
  exists encoded, logits, row, i, logits0, at_mask.
  split_and!; auto.
  - apply nonzero_eq_spec. rewrite Hpos. apply list_elem_of_here.
  - intros j Hj. apply nonzero_eq_spec in Hj. rewrite Hpos in Hj.
    apply elem_of_cons in Hj. destruct Hj as [Hj | Hj]; [exact Hj |].
    inversion Hj.
Qed.

(** *** The words of the decoded text *)

Lemma string_app_cons c (a b : string) : String c a +:+ b = String c (a +:+ b).
Proof. reflexivity. Qed.

Lemma string_app_assoc (a b c : string) : (a +:+ b) +:+ c = a +:+ (b +:+ c).
Proof.
  induction a as [| x a IH]; [reflexivity |].
  rewrite !string_app_cons, IH. reflexivity.
Qed.

Lemma string_length_app_one (w : string) c :
  String.length (w +:+ String c EmptyString) = S (String.length w).
Proof.
  induction w as [| x w IH]; [reflexivity |].
  rewrite string_app_cons. simpl. rewrite IH. reflexivity.
Qed.

(** A whitespace character at the head of a string is still there when
    the string is extended. *)
Lemma whitespace_length_prefix (a b : string) :
  whitespace_length (a +:+ b) = 0%nat -> whitespace_length a = 0%nat.
Proof.
  destruct a as [| c [| d [| e a]]]; [reflexivity | | |];
    rewrite ?string_app_cons; unfold whitespace_length; simpl;
    repeat case_match; simplify_eq; try done.
Qed.

Lemma starts_clean_prefix (w s : string) :
  starts_clean (String.length w) (w +:+ s) = true -> no_whitespace w = true.
Proof.
  unfold no_whitespace. induction w as [| x w IH]; [reflexivity |].
  rewrite string_app_cons. cbn [String.length starts_clean].
  intros H. apply andb_true_iff in H. destruct H as [Hh Ht].
  apply andb_true_iff. split; [| exact (IH Ht)].
  apply Nat.eqb_eq. apply Nat.eqb_eq in Hh.
  rewrite <- string_app_cons in Hh. exact (whitespace_length_prefix _ _ Hh).
Qed.

(** Taking into the word a byte at which no whitespace starts. *)
Lemma starts_clean_step (w s : string) c :
  starts_clean (String.length w) (w +:+ String c s) = true ->
  whitespace_length (String c s) = 0%nat ->
  starts_clean (String.length (w +:+ String c EmptyString))
    ((w +:+ String c EmptyString) +:+ s) = true.
Proof.
  rewrite string_app_assoc. rewrite string_length_app_one.
  change (String c EmptyString +:+ s) with (String c s).
  induction w as [| x w IH]; intros Hw Hc.
  - cbn [String.length starts_clean].
    change (EmptyString +:+ String c s) with (String c s).
    cbn [starts_clean]. rewrite Hc. reflexivity.
  - rewrite string_app_cons in *. cbn [String.length starts_clean] in *.
    apply andb_true_iff in Hw. destruct Hw as [Hh Ht].
    apply andb_true_iff. split; [exact Hh | exact (IH Ht Hc)].
Qed.

(** The words cut off by [split_from]: none is empty and no whitespace
    character starts inside one.  While a word is being read ([skip] is 0),
    no whitespace starts at any of its bytes, read together with the text
    still ahead. *)
Lemma split_from_words s : forall skip word,
  (skip = 0%nat -> starts_clean (String.length word) (word +:+ s) = true) ->
  (skip <> 0%nat -> word = EmptyString) ->
  Forall (fun w => w <> EmptyString /\ no_whitespace w = true)
    (split_from skip word s).
Proof.
  induction s as [| c s IH]; intros skip word Hclean Hskip; cbn [split_from].
  - destruct word as [| x word]; [constructor |].
    constructor; [| constructor]. split; [discriminate |].
    destruct skip as [| k];
      [| specialize (Hskip ltac:(discriminate)); discriminate].
    apply (starts_clean_prefix _ EmptyString). exact (Hclean eq_refl).
  - destruct skip as [| k].
    + specialize (Hclean eq_refl).
      destruct (whitespace_length (String c s)) as [| k] eqn:Hc.
      * apply IH; [intros _ | intros H; contradiction].
        exact (starts_clean_step word s c Hclean Hc).
      * assert (Forall (fun w => w <> EmptyString /\ no_whitespace w = true)
                  (split_from k EmptyString s)) as Hrest.
        { apply IH; [intros _; reflexivity | intros _; reflexivity]. }
        destruct word as [| x word]; [exact Hrest |].
        constructor; [| exact Hrest]. split; [discriminate |].
        exact (starts_clean_prefix _ _ Hclean).
    + rewrite (Hskip ltac:(discriminate)).
      apply IH; [intros _; reflexivity | intros _; reflexivity].
Qed.

Lemma concat_flush_word word rest :
  concat_words (flush_word word rest) = word +:+ concat_words rest.
Proof. destruct word; reflexivity. Qed.

(** The words together are the pending word followed by what is left of
    the text when its whitespace is taken out. *)
Lemma split_from_concat s : forall skip word,
  concat_words (split_from skip word s) = word +:+ strip_from skip s.
Proof.
  induction s as [| c s IH]; intros skip word; cbn [split_from strip_from].
  - rewrite concat_flush_word. reflexivity.
  - destruct skip as [| k]; [| apply IH].
    destruct (whitespace_length (String c s)) as [| k].
    + rewrite IH, string_app_assoc. reflexivity.
    + rewrite concat_flush_word, IH. reflexivity.
Qed.

(** X9.  Every prediction that [fill_mask] returns is a non-empty string
    in which no whitespace character of Python starts, and the predictions
    one after the other are the decoded text of the selected ids with its
    whitespace characters removed: splitting loses no other character and
    keeps the order. *)
Theorem fill_mask_predictions_are_words s s' text src k preds :
  fill_mask text src k s = (s', Returned preds) ->
  Forall (fun w => w <> EmptyString /\ no_whitespace w = true) preds
  /\ exists ids decoded,
       decode ids false = Returned decoded
       /\ concat_words preds = strip_whitespace decoded.
Proof.
  intros H. unfold fill_mask, try_except in H.
  destruct (fill_mask_body text src k s) as [s1 [a | e]] eqn:Hb; simplify_eq.
  destruct (fill_mask_body_returned _ _ _ _ _ _ Hb)
    as (langs & encoded & logits & row & i & logits0 & at_mask & values
        & ids & decoded & _ & _ & _ & _ & _ & _ & _ & _ & _ & Hdec & -> & _).
  split.
  - apply split_from_words; [intros _; reflexivity | intros H; contradiction].
  - exists ids, decoded. split; [exact Hdec |].
    exact (split_from_concat decoded 0%nat EmptyString).
Qed.

(** *** One request after another *)

(** X10.  [fill_mask] does not assign the tokenizer's [src_lang]: after a
    [translate] from language [a] that returned, a [fill_mask] for any
    language [c] encodes its text with the tokenizer still set to [a], and
    leaves it so. *)
Theorem fill_mask_after_translate s s1 s2 text a b outs text' c k preds :
  translate text a b s = (s1, Returned outs) ->
  fill_mask text' c k s1 = (s2, Returned preds) ->
  src_lang (tokenizer s1) = a
  /\ tokenizer s2 = tokenizer s1
  /\ exists encoded,
       tokenizer_call
         (Tokenizer a (lang_code_to_id (tokenizer s)) (mask_token_id (tokenizer s)))
         ["</s> " +:+ text' +:+ " </s> " +:+ c] false
       = Returned encoded.
Proof.
  intros Ht Hf. unfold translate, fill_mask, try_except in *.
  destruct (translate_body text a b s) as [s1' [o | e]] eqn:Hb1; simplify_eq.
  destruct (fill_mask_body text' c k s1) as [s2' [p | e]] eqn:Hb2; simplify_eq.
  destruct (translate_body_returned _ _ _ _ _ _ Hb1)
    as (langs & bos & encoded & generated & _ & _ & _ & _ & _ & _ & _ & ->).
  destruct (fill_mask_body_returned _ _ _ _ _ _ Hb2)
    as (langs' & encoded' & logits & row & i & logits0 & at_mask & values
        & ids & decoded & _ & _ & Henc & _ & _ & _ & _ & _ & _ & _ & _ & ->).
  simpl in *. split_and!; [reflexivity | reflexivity |].
  exists encoded'. exact Henc.
Qed.

(** *** Importing the module *)

(** X11.  The import succeeds exactly when both checkpoint loads succeed,
    the model first and both under the same name.  The state it ends in
    holds the loaded tokenizer, has called no collaborator, and already has
    the function bound to [supported_languages], so that every request made
    of it fails with the TypeError of the membership test. *)
Theorem import_module_result st :
  import_module = Returned st ->
  exists m tk,
    load_model checkpoint = Returned m
    /\ load_tokenizer checkpoint = Returned tk
    /\ tokenizer st = tk
    /\ calls st = []
    /\ globals st = <["model" := m]> (globals (module_init tk))
    /\ live_actions st = live_actions (module_init tk)
    /\ forall r,
         perform r st
         = (print (format_exc (TypeError "argument of type 'function' is not iterable")) st,
            Raised (HTTPExc 500 "argument of type 'function' is not iterable")).
Proof.
  unfold import_module, setup_loaded. intros H.
  destruct (load_model checkpoint) as [m | e]; [| discriminate H].
  destruct (load_tokenizer checkpoint) as [tk | e]; [| discriminate H].
  injection H as <-. exists m, tk.
  split_and!; try reflexivity.
  intros r. apply (perform_with_function_bound r _ "supported_languages").
  unfold def_action, store_global. simpl. apply lookup_insert_eq.
Qed.

(** *** The tokenizer's source language *)

(** X13.  With a list bound to [supported_languages], a call of
    [translate] whose two codes are in the list leaves the tokenizer's
    [src_lang] set to its source code whether it returns or fails: the
    assignment of line 44 is not undone when the lookup of the target, the
    tokenizer, the generation or the decoding raises. *)
Theorem translate_validated_sets_src_lang s langs text src tgt :
  globals s !! "supported_languages" = Some (PyList langs) ->
  src ∈ langs ->
  tgt ∈ langs ->
  src_lang (tokenizer (fst (translate text src tgt s))) = src.
Proof.
  intros Hg Hs Ht. run_py. rewrite Hg. simpl.
  rewrite (bool_decide_true _ Hs). simpl. rewrite Hg. simpl.
  rewrite (bool_decide_true _ Ht). simpl.
  repeat (case_match; simplify_eq; simpl in *; try done).
Qed.

Lemma translate_src_lang_step s langs text src tgt :
  globals s !! "supported_languages" = Some (PyList langs) ->
  src_lang (tokenizer (fst (translate text src tgt s))) = src_lang (tokenizer s)
  \/ (src ∈ langs
      /\ src_lang (tokenizer (fst (translate text src tgt s))) = src).
Proof.
  intros Hg. run_py. rewrite Hg. simpl.
  case_bool_decide as Hs; simpl; [| left; reflexivity].
  rewrite Hg. simpl.
  case_bool_decide as Ht; simpl; [| left; reflexivity].
  right. split; [exact Hs |].
  repeat (case_match; simplify_eq; simpl in *; try done).
Qed.

(** X14.  Starting from a state in which a list is bound to
    [supported_languages] and the tokenizer's [src_lang] is in that list,
    no sequence of requests changes the list, the language table or the
    mask id, and [src_lang] is a member of the list at every moment:
    [translate] assigns it validated codes only. *)
Theorem src_lang_stays_supported s0 s langs :
  globals s0 !! "supported_languages" = Some (PyList langs) ->
  src_lang (tokenizer s0) ∈ langs ->
  served_from s0 s ->
  globals s !! "supported_languages" = Some (PyList langs)
  /\ src_lang (tokenizer s) ∈ langs
  /\ lang_code_to_id (tokenizer s) = lang_code_to_id (tokenizer s0)
  /\ mask_token_id (tokenizer s) = mask_token_id (tokenizer s0).
Proof.
  intros Hg0 Hs0. induction 1 as [| r s Hr IH | s Hr IH].
  - auto.
  - destruct IH as (Hg & Hs & Hl & Hm). destruct r as [text src tgt | text src k].
    + simpl.
      pose proof (try_except_frame (only_src_lang src)
                    (translate_body text src tgt)
                    ltac:(intros line s1; unfold only_src_lang; simpl; auto 6)
                    (translate_body_frame text src tgt) s)
        as (Hg' & _ & Hl' & Hm' & _).
      fold (translate text src tgt s) in Hg', Hl', Hm'.
      split_and!; try congruence.
      destruct (translate_src_lang_step s langs text src tgt Hg)
        as [-> | [Hin ->]]; assumption.
    + simpl.
      pose proof (try_except_frame same_shared (fill_mask_body text src k)
                    ltac:(intros line s1; unfold same_shared; simpl; auto)
                    (fill_mask_body_frame text src k) s)
        as (Hg' & Ht' & _).
      fold (fill_mask text src k s) in Hg', Ht'.
      rewrite Hg', Ht'. auto.
  - rewrite supported_languages_state. exact IH.
Qed.

End Translator.

(** ** The fake collaborators in place *)

Abbreviation fake_translate :=
  (translate Fake.tokenizer_call Fake.generate Fake.batch_decode
     Fake.format_exc Fake.py_repr).
Abbreviation fake_fill_mask :=
  (fill_mask Z Fake.tokenizer_call Fake.forward Fake.softmax Fake.topk
     Fake.decode Fake.format_exc Fake.item_error Fake.index_error).
Abbreviation fake_fill_mask_body :=
  (fill_mask_body Z Fake.tokenizer_call Fake.forward Fake.softmax Fake.topk
     Fake.decode Fake.item_error Fake.index_error).
Abbreviation fake_perform :=
  (perform Z Fake.tokenizer_call Fake.generate Fake.batch_decode Fake.forward
     Fake.softmax Fake.topk Fake.decode Fake.format_exc Fake.py_repr
     Fake.item_error Fake.index_error).
Abbreviation fake_body_of :=
  (body_of Z Fake.tokenizer_call Fake.generate Fake.batch_decode Fake.forward
     Fake.softmax Fake.topk Fake.decode Fake.py_repr Fake.item_error
     Fake.index_error).
Abbreviation fake_reachable :=
  (reachable Z Fake.tokenizer_call Fake.generate Fake.batch_decode Fake.forward
     Fake.softmax Fake.topk Fake.decode Fake.format_exc Fake.py_repr
     Fake.item_error Fake.index_error).

(** The module loaded up to line 90 with the fake tokenizer: the list of
    line 20 is what [supported_languages] names. *)
Abbreviation fake_listed := (module_before_line_91 Fake.tk).
Abbreviation not_iterable_msg := "argument of type 'function' is not iterable".
Abbreviation unsupported_xx := "Unsupported source language: xx_XX".
Abbreviation no_mask_text := "</s> no mask here </s> en_XX".

(** ** The theorems at concrete calls *)

Lemma translate_never_returns_witness :
  fake_reachable Fake.tk (module_init Fake.tk)
  /\ fake_translate (Single "Hello") "en_XX" "fr_XX" (module_init Fake.tk)
     = (print (Fake.format_exc (TypeError not_iterable_msg)) (module_init Fake.tk),
        Raised (HTTPExc 500 not_iterable_msg)).
Proof.
  split.
  - apply reach_init.
  - apply (translate_never_returns Z Fake.tokenizer_call Fake.generate
             Fake.batch_decode Fake.forward Fake.softmax Fake.topk Fake.decode
             Fake.format_exc Fake.py_repr Fake.item_error Fake.index_error
             Fake.tk (module_init Fake.tk) (Single "Hello") "en_XX" "fr_XX").
    apply reach_init.
Defined.

Lemma failure_is_http_500_witness :
  fake_perform (Translate (Single "Hello") "xx_XX" "fr_XX") fake_listed
  = (print (Fake.format_exc (ValueError unsupported_xx)) fake_listed,
     Raised (HTTPExc 500 unsupported_xx))
  /\ status_code (HTTPExc 500 unsupported_xx) = 500
  /\ exists e s_body,
       fake_body_of (Translate (Single "Hello") "xx_XX" "fr_XX") fake_listed
       = (s_body, Raised e)
       /\ HTTPExc 500 unsupported_xx = HTTPExc 500 (exc_str e)
       /\ print (Fake.format_exc (ValueError unsupported_xx)) fake_listed
          = print (Fake.format_exc e) s_body
       /\ stdout (print (Fake.format_exc (ValueError unsupported_xx)) fake_listed)
          = stdout s_body ++ [Fake.format_exc e].
Proof.
  assert (fake_perform (Translate (Single "Hello") "xx_XX" "fr_XX") fake_listed
          = (print (Fake.format_exc (ValueError unsupported_xx)) fake_listed,
             Raised (HTTPExc 500 unsupported_xx)))
    as H by (vm_compute; reflexivity).
  split; [exact H |].
  exact (failure_is_http_500 Z Fake.tokenizer_call Fake.generate
           Fake.batch_decode Fake.forward Fake.softmax Fake.topk
           Fake.decode Fake.format_exc Fake.py_repr Fake.item_error
           Fake.index_error _ _ _ _ H).
Defined.



Lemma fill_mask_mask_count_witness :
  Fake.tokenizer_call (tokenizer fake_listed) [no_mask_text] false
  = Returned (Fake.encoding_of [no_mask_text])
  /\ input_ids (Fake.encoding_of [no_mask_text]) !! 0%nat
     = Some (Fake.encode_row no_mask_text)
  /\ List.length (nonzero_eq (Fake.encode_row no_mask_text)
                    (mask_token_id (tokenizer fake_listed))) <> 1%nat
  /\ exists s_body e,
       fake_fill_mask_body "no mask here" "en_XX" 10 fake_listed
       = (s_body, Raised e)
       /\ fake_fill_mask "no mask here" "en_XX" 10 fake_listed
          = (print (Fake.format_exc e) s_body, Raised (HTTPExc 500 (exc_str e)))
       /\ e = Fake.item_error 0.
Proof.
  assert (Fake.tokenizer_call (tokenizer fake_listed) [no_mask_text] false
          = Returned (Fake.encoding_of [no_mask_text])) as H1 by reflexivity.
  assert (input_ids (Fake.encoding_of [no_mask_text]) !! 0%nat
          = Some (Fake.encode_row no_mask_text)) as H2 by reflexivity.
  assert (List.length (nonzero_eq (Fake.encode_row no_mask_text)
                         (mask_token_id (tokenizer fake_listed))) <> 1%nat)
    as H3 by (vm_compute; discriminate).
  split_and!; [exact H1 | exact H2 | exact H3 |].
  destruct (fill_mask_mask_count Z Fake.tokenizer_call Fake.forward
              Fake.softmax Fake.topk Fake.decode Fake.format_exc
              Fake.item_error Fake.index_error fake_listed "no mask here"
              "en_XX" 10 _ _ H1 H2 H3) as (s_body & e & Hb & Hf & He).
  exists s_body, e. split_and!; [exact Hb | exact Hf |].
  rewrite He. reflexivity.
Defined.

(** ** The further properties at concrete calls *)

Abbreviation fake_served_from :=
  (served_from Z Fake.tokenizer_call Fake.generate Fake.batch_decode
     Fake.forward Fake.softmax Fake.topk Fake.decode Fake.format_exc
     Fake.py_repr Fake.item_error Fake.index_error).
Abbreviation fake_langs := ["en_XX"; "fr_XX"].
Abbreviation fake_after_one :=
  (fst (fake_perform (Translate (Single "Hello") "en_XX" "fr_XX")
          (module_init Fake.tk))).
Abbreviation fake_after_translate :=
  (fst (fake_translate (Single "Hello") "fr_XX" "en_XX" fake_listed)).
Abbreviation not_iterable_trace :=
  (Fake.format_exc (TypeError not_iterable_msg)).

Lemma fake_en_supported : "en_XX" ∈ fake_langs.
Proof. apply list_elem_of_here. Qed.

Lemma fake_fr_supported : "fr_XX" ∈ fake_langs.
Proof. apply list_elem_of_further, list_elem_of_here. Qed.

Lemma fake_xx_unsupported : "xx_XX" ∉ fake_langs.
Proof.
  intros H. apply list_elem_of_In in H. simpl in H.
  destruct H as [H | [H | []]]; discriminate H.
Qed.

Lemma fake_listed_binding :
  globals fake_listed !! "supported_languages" = Some (PyList fake_langs).
Proof. apply (globals_before_line_91 Fake.tk). Qed.

Lemma loaded_module_invariant_witness :
  fake_reachable Fake.tk fake_after_one
  /\ tokenizer fake_after_one = Fake.tk
  /\ calls fake_after_one = []
  /\ stdout fake_after_one = [not_iterable_trace].
Proof.
  assert (fake_reachable Fake.tk fake_after_one) as H
    by (apply reach_perform, reach_init).
  split; [exact H |].
  destruct (loaded_module_invariant _ _ _ _ _ _ _ _ _ _ _ _ _ _ H)
    as (Ht & Hc & _).
  split_and!; [exact Ht | exact Hc | reflexivity].
Defined.

Lemma loaded_module_serves_nothing_witness :
  fake_reachable Fake.tk (module_init Fake.tk)
  /\ fake_fill_mask "Paris is ?" "en_XX" 1 (module_init Fake.tk)
     = (print not_iterable_trace (module_init Fake.tk),
        Raised (HTTPExc 500 not_iterable_msg)).
Proof.
  assert (fake_reachable Fake.tk (module_init Fake.tk)) as H by apply reach_init.
  split; [exact H |].
  exact (proj1 (loaded_module_serves_nothing _ _ _ _ _ _ _ _ _ _ _ _ _ _
                  "Paris is ?" "en_XX" 1 H)).
Defined.

Lemma translate_rejects_unsupported_witness :
  globals fake_listed !! "supported_languages" = Some (PyList fake_langs)
  /\ (("xx_XX" ∉ fake_langs) \/ ("yy_YY" ∉ fake_langs))
  /\ fake_translate (Single "Hello") "xx_XX" "yy_YY" fake_listed
     = (print (Fake.format_exc (ValueError unsupported_xx)) fake_listed,
        Raised (HTTPExc 500 unsupported_xx)).
Proof.
  split_and!; [exact fake_listed_binding | left; exact fake_xx_unsupported |].
  exact (translate_rejects_unsupported Fake.tokenizer_call Fake.generate
           Fake.batch_decode Fake.format_exc Fake.py_repr fake_listed
           fake_langs (Single "Hello") "xx_XX" "yy_YY" fake_listed_binding
           (or_introl fake_xx_unsupported)).
Defined.

Lemma fill_mask_rejects_unsupported_witness :
  globals fake_listed !! "supported_languages" = Some (PyList fake_langs)
  /\ ("xx_XX" ∉ fake_langs)
  /\ fake_fill_mask "Paris is ?" "xx_XX" 1 fake_listed
     = (print (Fake.format_exc (ValueError unsupported_xx)) fake_listed,
        Raised (HTTPExc 500 unsupported_xx)).
Proof.
  split_and!; [exact fake_listed_binding | exact fake_xx_unsupported |].
  exact (fill_mask_rejects_unsupported Z Fake.tokenizer_call Fake.forward
           Fake.softmax Fake.topk Fake.decode Fake.format_exc Fake.item_error
           Fake.index_error fake_listed fake_langs "Paris is ?" "xx_XX" 1
           fake_listed_binding fake_xx_unsupported).
Defined.

Lemma translate_validated_pipeline_witness :
  globals fake_listed !! "supported_languages" = Some (PyList fake_langs)
  /\ "en_XX" ∈ fake_langs
  /\ "fr_XX" ∈ fake_langs
  /\ exists bos,
       dict_lookup (lang_code_to_id Fake.tk) "fr_XX" = Some bos
       /\ snd (fake_translate (Single "Hello") "en_XX" "fr_XX" fake_listed)
          = Returned [Fake.text_of (bos :: Fake.encode_row "Hello")].
Proof.
  split_and!;
    [exact fake_listed_binding | exact fake_en_supported
     | exact fake_fr_supported |].
  destruct (translate_validated_pipeline Fake.tokenizer_call Fake.generate
              Fake.batch_decode Fake.format_exc Fake.py_repr fake_listed
              (Single "Hello") "en_XX" "fr_XX" fake_listed_binding
              fake_en_supported fake_fr_supported) as (bos & Hb & Hr).
  exists bos. split; [exact Hb |]. rewrite Hr. reflexivity.
Defined.

Lemma fill_mask_reads_mask_position_witness :
  fake_fill_mask "Paris is ?" "en_XX" 1 fake_listed
  = (fst (fake_fill_mask "Paris is ?" "en_XX" 1 fake_listed), Returned ["Paris"])
  /\ exists (row : list Z) (i : nat),
       row !! i = Some 250053
       /\ forall j : nat, row !! j = Some 250053 -> j = i.
Proof.
  assert (fake_fill_mask "Paris is ?" "en_XX" 1 fake_listed
          = (fst (fake_fill_mask "Paris is ?" "en_XX" 1 fake_listed),
             Returned ["Paris"]))
    as H by (vm_compute; reflexivity).
  split; [exact H |].
  destruct (fill_mask_reads_mask_position _ _ _ _ _ _ _ _ _ _ _ _ _ _ _ H)
    as (encoded & logits & row & i & logits0 & at_mask
        & _ & _ & Hi & Hu & _).
  exists row, i. split; [exact Hi | exact Hu].
Defined.

Lemma fill_mask_predictions_are_words_witness :
  fake_fill_mask "Paris is ?" "en_XX" 1 fake_listed
  = (fst (fake_fill_mask "Paris is ?" "en_XX" 1 fake_listed), Returned ["Paris"])
  /\ Forall (fun w => w <> EmptyString /\ no_whitespace w = true) ["Paris"].
Proof.
  assert (fake_fill_mask "Paris is ?" "en_XX" 1 fake_listed
          = (fst (fake_fill_mask "Paris is ?" "en_XX" 1 fake_listed),
             Returned ["Paris"]))
    as H by (vm_compute; reflexivity).
  split; [exact H |].
  exact (proj1 (fill_mask_predictions_are_words _ _ _ _ _ _ _ _ _ _ _ _ _ _
                  _ H)).
Defined.

Lemma fill_mask_after_translate_witness :
  fake_translate (Single "Hello") "fr_XX" "en_XX" fake_listed
  = (fake_after_translate,
     Returned [Fake.text_of (250004 :: Fake.encode_row "Hello")])
  /\ fake_fill_mask "Paris is ?" "en_XX" 1 fake_after_translate
     = (fst (fake_fill_mask "Paris is ?" "en_XX" 1 fake_after_translate),
        Returned ["Paris"])
  /\ src_lang (tokenizer fake_after_translate) = "fr_XX"
  /\ tokenizer (fst (fake_fill_mask "Paris is ?" "en_XX" 1 fake_after_translate))
     = tokenizer fake_after_translate.
Proof.
  assert (fake_translate (Single "Hello") "fr_XX" "en_XX" fake_listed
          = (fake_after_translate,
             Returned [Fake.text_of (250004 :: Fake.encode_row "Hello")]))
    as H1 by (vm_compute; reflexivity).
  assert (fake_fill_mask "Paris is ?" "en_XX" 1 fake_after_translate
          = (fst (fake_fill_mask "Paris is ?" "en_XX" 1 fake_after_translate),
             Returned ["Paris"]))
    as H2 by (vm_compute; reflexivity).
  split_and!; [exact H1 | exact H2 | |];
    destruct (fill_mask_after_translate _ _ _ _ _ _ _ _ _ _ _ _ _ _ _ _ _ _
                _ _ _ _ _ H1 H2) as (Ha & Hb & _); assumption.
Defined.

Lemma import_module_result_witness :
  import_module FakeHub.load_model FakeHub.load_tokenizer
  = Returned (module_init Fake.tk)
  /\ forall r,
       fake_perform r (module_init Fake.tk)
       = (print not_iterable_trace (module_init Fake.tk),
          Raised (HTTPExc 500 not_iterable_msg)).
Proof.
  assert (import_module FakeHub.load_model FakeHub.load_tokenizer
          = Returned (module_init Fake.tk)) as H by (vm_compute; reflexivity).
  split; [exact H |].
  destruct (import_module_result Z Fake.tokenizer_call Fake.generate
              Fake.batch_decode Fake.forward Fake.softmax Fake.topk
              Fake.decode Fake.format_exc Fake.py_repr Fake.item_error
              Fake.index_error _ _ _ H)
    as (m & tk & _ & _ & _ & _ & _ & _ & Hall).
  exact Hall.
Defined.

Lemma translate_validated_sets_src_lang_witness :
  globals fake_listed !! "supported_languages" = Some (PyList fake_langs)
  /\ "fr_XX" ∈ fake_langs
  /\ "en_XX" ∈ fake_langs
  /\ src_lang (tokenizer fake_after_translate) = "fr_XX".
Proof.
  split_and!;
    [exact fake_listed_binding | exact fake_fr_supported
     | exact fake_en_supported |].
  exact (translate_validated_sets_src_lang Fake.tokenizer_call Fake.generate
           Fake.batch_decode Fake.format_exc Fake.py_repr fake_listed
           fake_langs (Single "Hello") "fr_XX" "en_XX" fake_listed_binding
           fake_fr_supported fake_en_supported).
Defined.

Lemma src_lang_stays_supported_witness :
  globals fake_listed !! "supported_languages" = Some (PyList fake_langs)
  /\ src_lang (tokenizer fake_listed) ∈ fake_langs
  /\ fake_served_from fake_listed
       (fst (fake_perform (Translate (Single "Hello") "fr_XX" "en_XX")
               fake_listed))
  /\ src_lang (tokenizer
                 (fst (fake_perform (Translate (Single "Hello") "fr_XX" "en_XX")
                         fake_listed))) ∈ fake_langs.
Proof.
  assert (fake_served_from fake_listed
            (fst (fake_perform (Translate (Single "Hello") "fr_XX" "en_XX")
                    fake_listed))) as H
    by (apply served_request, served_none).
  split_and!; [exact fake_listed_binding | exact fake_en_supported | exact H |].
  exact (proj1 (proj2 (src_lang_stays_supported _ _ _ _ _ _ _ _ _ _ _ _ _ _
                         fake_langs fake_listed_binding fake_en_supported H))).
Defined.
